(** * Free LCOH Model: the valuation engine, the optimizer adapter and the
      sensitivity sweep of [new.py], embedded over binary64 floats.

    Python's [float] is IEEE 754 binary64 with round-to-nearest-even, which
    is what Rocq's primitive [float] is; the arithmetic below is therefore
    the arithmetic the script performs, bit for bit.  Dictionaries are
    [gmap string _], a failed subscript is [KeyError], and a true division
    by zero is [ZeroDivisionError]. *)

From Stdlib Require Import ZArith Uint63 Floats List Lia.
From stdpp Require Import base option list gmap strings.

Set Warnings "-inexact-float".
Set Default Proof Using "Type".

Open Scope float_scope.

(* ================================================================== *)
(** * Part I: the program *)

(** ** Exceptions and the result monad *)

Inductive exn :=
  | KeyError (k : string)
  | ZeroDivisionError
  | IndexError.

Inductive result (A : Type) :=
  | Ok (a : A)
  | Raise (e : exn).
Arguments Ok {A} a.
Arguments Raise {A} e.

#[global] Instance result_ret : MRet result := fun A a => Ok a.
#[global] Instance result_bind : MBind result := fun A B f m =>
  match m with
  | Ok a => f a
  | Raise e => Raise e
  end.

Definition raises {A} (m : result A) : bool :=
  match m with Ok _ => false | Raise _ => true end.

(** Python's [d[k]] on a dict. *)
Definition getitem {A} (d : gmap string A) (k : string) : result A :=
  match d !! k with
  | Some v => Ok v
  | None => Raise (KeyError k)
  end.

(** Python's [x / y] on floats: a zero divisor raises, anything else is the
    IEEE quotient (an overflow gives an infinity, it does not raise).  A
    NumPy scalar would give an infinity or a NaN for a zero divisor instead
    of raising; the results below show that no zero divisor ever occurs, so
    the difference is never observed. *)
Definition truediv (x y : float) : result float :=
  if y =? 0 then Raise ZeroDivisionError else Ok (x / y).

Infix "/!" := truediv (at level 40, left associativity).

(** Python's [x != y] on floats. *)
Definition neqb (x y : float) : bool := negb (x =? y).

(** Python's [for i, k in enumerate(keys): d[k] = x[i]]. *)
Fixpoint overlay_from (i : nat) (keys : list string) (x : list float)
    (d : gmap string float) : result (gmap string float) :=
  match keys with
  | [] => Ok d
  | k :: keys' =>
      match x !! i with
      | Some v => overlay_from (S i) keys' x (<[k := v]> d)
      | None => Raise IndexError
      end
  end.

Definition overlay := overlay_from 0.

(** A Python [for] loop that appends one item per element, left to right,
    and stops at the first exception. *)
Fixpoint for_each {A B} (f : A -> result B) (l : list A) : result (list B) :=
  match l with
  | [] => Ok []
  | a :: l' => b ← f a; bs ← for_each f l'; Ok (b :: bs)
  end.

(** ** The parameter registry ([parameters]) *)

Record Param := {
  key : string;
  label : string;
  default_value : float;
  min_value : float;
  max_value : float;
  in_optimization : bool
}.

Definition parameters : list Param := [
  {| key := "capex_mw_yr"; label := "CAPEX [$/Mw/yr]";
     default_value := 3242.0; min_value := 0.0; max_value := 999999999.0;
     in_optimization := true |};
  {| key := "opex_mw_yr"; label := "OPEX [$/Mw/yr]";
     default_value := 90000.0; min_value := 0.0; max_value := 999999999.0;
     in_optimization := true |};
  {| key := "annual_h2_prod"; label := "Annual H2 Production [Kg/yr]";
     default_value := 876000.0; min_value := 0.0; max_value := 999999999.0;
     in_optimization := false |};
  {| key := "plant_size_mw"; label := "Plant Size [Mw]";
     default_value := 100.0; min_value := 0.0; max_value := 999999.0;
     in_optimization := false |};
  {| key := "plant_life"; label := "Plant Lifetime [yr]";
     default_value := 20.0; min_value := 1.0; max_value := 30.0;
     in_optimization := false |};
  {| key := "discount_rate"; label := "Discount rate [%]";
     default_value := 5.0; min_value := 0.0; max_value := 15.0;
     in_optimization := false |};
  {| key := "capacity_factor"; label := "Capacity Factor [%]";
     default_value := 90.0; min_value := 0.0; max_value := 100.0;
     in_optimization := true |};
  {| key := "h2_efficiency_1"; label := "H2 Efficiency [kWh/kg] (1)";
     default_value := 50.0; min_value := 0.0; max_value := 9999.0;
     in_optimization := false |};
  {| key := "h2_efficiency_2"; label := "H2 Efficiency [kWh/kg] (2)";
     default_value := 70.0; min_value := 0.0; max_value := 9999.0;
     in_optimization := false |};
  {| key := "electricity_cost"; label := "Electricity Cost [$/Mwh]";
     default_value := 3.0; min_value := 1.0; max_value := 700.0;
     in_optimization := true |};
  {| key := "crf"; label := "CRF";
     default_value := 0.094392926; min_value := 0.0; max_value := 1.0;
     in_optimization := false |};
  {| key := "dcf_factor"; label := "DCF factor";
     default_value := 10.59401425; min_value := 0.0; max_value := 999999.0;
     in_optimization := false |};
  {| key := "h2_selling_price"; label := "H2 Selling Price [$/kg]";
     default_value := 3.5; min_value := 0.0; max_value := 999999.0;
     in_optimization := true |};
  {| key := "carbon_tax"; label := "Carbon Tax [$/ton co2]";
     default_value := 0.0; min_value := 0.0; max_value := 999999.0;
     in_optimization := true |};
  {| key := "tax_credit"; label := "Tax Credit [$/kgH2]";
     default_value := 0.0; min_value := 0.0; max_value := 999999.0;
     in_optimization := true |};
  {| key := "h2_storage_cost"; label := "Hydrogen Storage Cost [$/kg]";
     default_value := 1.0; min_value := 1.0; max_value := 700.0;
     in_optimization := false |};
  {| key := "h2_transport_cost"; label := "Hydrogen Transportation Cost [$/kg]";
     default_value := 0.0; min_value := 0.0; max_value := 999999.0;
     in_optimization := false |}
].

(** ** The session tables ([user_values], [opt_flags]) *)

(** A row of [opt_flags]. *)
Record OptFlag := { min : float; max : float; in_opt : bool }.

(** What the four widgets of a parameter row hand back. *)
Record Row := { val : float; mn : float; mx : float; in_opt_box : bool }.

(** The loop over [parameters] that fills the two tables. *)
Fixpoint fill_tables (ui : Param -> Row) (ps : list Param)
    (user_values : gmap string float) (opt_flags : gmap string OptFlag)
    : gmap string float * gmap string OptFlag :=
  match ps with
  | [] => (user_values, opt_flags)
  | param :: ps' =>
      let w := ui param in
      fill_tables ui ps'
        (<[key param := val w]> user_values)
        (<[key param := {| min := mn w; max := mx w; in_opt := in_opt_box w |}]>
           opt_flags)
  end.

(** ** The valuation engine ([calculate_model]) *)

(** The dict [calculate_model] returns, one field per key. *)
Record Valuation := {
  capex_per_kg : float;
  opex_per_kg : float;
  elec_per_kg : float;
  carbon_tax_per_kg : float;
  lcoh : float;
  money_check : string;
  revenue : float;
  cost : float;
  profit : float;
  npv : float;
  payback : float;
  roi : float
}.

Definition calculate_model (vals : gmap string float) : result Valuation :=
  capex_yr ← getitem vals "capex_mw_yr";
  opex_yr ← getitem vals "opex_mw_yr";
  annual_prod ← getitem vals "annual_h2_prod";
  plant_life ← getitem vals "plant_life";
  discount_rate ← (v ← getitem vals "discount_rate"; v /! 100.0);
  cap_factor ← (v ← getitem vals "capacity_factor"; v /! 100.0);
  eff1 ← getitem vals "h2_efficiency_1";
  eff2 ← getitem vals "h2_efficiency_2";
  elec_cost ← getitem vals "electricity_cost";
  crf ← getitem vals "crf";
  dcf_factor ← getitem vals "dcf_factor";
  h2_price ← getitem vals "h2_selling_price";
  carbon_tax_ton ← getitem vals "carbon_tax";
  tax_credit ← getitem vals "tax_credit";
  storage_cost ← getitem vals "h2_storage_cost";
  transport_cost ← getitem vals "h2_transport_cost";
  (* Avoid division by zero *)
  let annual_prod := if annual_prod <=? 0 then 1e-9 else annual_prod in
  capex_per_kg ← (capex_yr * crf) /! annual_prod;
  opex_per_kg ← opex_yr /! annual_prod;
  elec_per_kg ← (q ← elec_cost /! 1000.0; Ok ((eff1 + eff2) * q));
  carbon_tax_per_kg ← carbon_tax_ton /! 1000.0;
  let lcoh := capex_per_kg + opex_per_kg + elec_per_kg + carbon_tax_per_kg
              + storage_cost + transport_cost - tax_credit in
  let money_check := if lcoh <? h2_price then "Money" else "No Money" in
  let revenue := h2_price * annual_prod in
  let total_cost := lcoh * annual_prod in
  let profit := revenue - total_cost in
  let npv := profit * dcf_factor in
  let payback := 0.0 in
  let roi := 0.0 in
  roi ← (if neqb total_cost 0
         then q ← profit /! total_cost; Ok (q * 100.0)
         else Ok roi);
  let payback := if 0 <? profit then 5.0 else payback in
  Ok {| capex_per_kg := capex_per_kg;
        opex_per_kg := opex_per_kg;
        elec_per_kg := elec_per_kg;
        carbon_tax_per_kg := carbon_tax_per_kg;
        lcoh := lcoh;
        money_check := money_check;
        revenue := revenue;
        cost := total_cost;
        profit := profit;
        npv := npv;
        payback := payback;
        roi := roi |}.

(** ** The optimizer adapter *)

Definition objective (x : list float) (fixed_params : gmap string float)
    (dv_keys : list string) : result float :=
  new_vals ← overlay dv_keys x fixed_params;
  out ← calculate_model new_vals;
  Ok (- npv out).

Definition money_constraint (x : list float) (fixed_params : gmap string float)
    (dv_keys : list string) : result float :=
  new_vals ← overlay dv_keys x fixed_params;
  out ← calculate_model new_vals;
  price ← getitem new_vals "h2_selling_price";
  Ok (price - lcoh out).

(** [[p["key"] for p in parameters if opt_flags[p["key"]]["in_opt"]]]. *)
Fixpoint select_keys (ps : list Param) (opt_flags : gmap string OptFlag)
    : result (list string) :=
  match ps with
  | [] => Ok []
  | p :: ps' =>
      f ← getitem opt_flags (key p);
      rest ← select_keys ps' opt_flags;
      Ok (if in_opt f then key p :: rest else rest)
  end.

Definition decision_keys := select_keys parameters.

(** The loop that builds [x0] and [bounds]. *)
Definition start_and_bounds (user_values : gmap string float)
    (opt_flags : gmap string OptFlag) (keys : list string)
    : result (list float * list (float * float)) :=
  rows ← for_each (fun k =>
            v ← getitem user_values k;
            f ← getitem opt_flags k;
            Ok (v, (min f, max f))) keys;
  Ok (rows.*1, rows.*2).

(** The two fields of SciPy's [OptimizeResult] the script looks at. *)
Record OptimizeResult := { success : bool; x : list float }.

(** [scipy.optimize.minimize] with [method="SLSQP"]: objective, start,
    bounds and inequality constraints in, an [OptimizeResult] out.  The
    routine is a library's, so the adapter is stated for any such routine. *)
Definition Solver : Type :=
  (list float -> result float) -> list float -> list (float * float) ->
  list (list float -> result float) -> result OptimizeResult.

(** What the "Optimize NPV" button puts on the page. *)
Inductive Outcome :=
  | Optimized (shown : list (string * float))
              (final_params : gmap string float) (final_res : Valuation)
  | OptimizationFailed.

(** [for i, k in enumerate(decision_keys): st.write(k, res.x[i])]. *)
Fixpoint shown_from (i : nat) (keys : list string) (x : list float)
    : result (list (string * float)) :=
  match keys with
  | [] => Ok []
  | k :: keys' =>
      match x !! i with
      | Some v => rest ← shown_from (S i) keys' x; Ok ((k, v) :: rest)
      | None => Raise IndexError
      end
  end.

Definition optimize_npv (minimize : Solver) (user_values : gmap string float)
    (decision_keys : list string) (x0 : list float)
    (bounds : list (float * float)) (enforce_money : bool) : result Outcome :=
  let cons :=
    if enforce_money
    then [fun x => money_constraint x user_values decision_keys]
    else [] in
  res ← minimize (fun x => objective x user_values decision_keys) x0 bounds cons;
  if success res then
    final_params ← overlay decision_keys (x res) user_values;
    final_res ← calculate_model final_params;
    shown ← shown_from 0 decision_keys (x res);
    Ok (Optimized shown final_params final_res)
  else Ok OptimizationFailed.

(** The whole button: decision set, start point and bounds from the session
    tables, then the solver. *)
Definition optimize_button (minimize : Solver) (user_values : gmap string float)
    (opt_flags : gmap string OptFlag) (enforce_money : bool) : result Outcome :=
  keys ← decision_keys opt_flags;
  '(x0, bounds) ← start_and_bounds user_values opt_flags keys;
  optimize_npv minimize user_values keys x0 bounds enforce_money.

(** ** The sensitivity sweep *)

Definition float_of_nat (n : nat) : float :=
  of_uint63 (Uint63.of_Z (Z.of_nat n)).

(** The [i]-th of [div + 1] samples from [start] towards [stop], as NumPy
    computes it: [i * step + start] with [step = (stop - start) / div], or
    [i / div * (stop - start) + start] when the step underflows to zero. *)
Definition sample (start stop : float) (div i : nat) : float :=
  let delta := stop - start in
  let step := delta / float_of_nat div in
  if step =? 0 then float_of_nat i / float_of_nat div * delta + start
  else float_of_nat i * step + start.

(** Modelled from the spec: [numpy.linspace] is a library routine, absent
    from the repository.  The spec asks for an evenly spaced sequence of
    [num] values across the interval, endpoints included: the first value
    is [start], the last is [stop], and the ones in between are the
    [sample]s.  (NumPy obtains the first value as sample 0, which is
    [start] whenever [start] and the step are finite, and overwrites the
    last one with [stop].) *)
Definition linspace (start stop : float) (num : nat) : list float :=
  match num with
  | 0 => []
  | 1 => [start]
  | S (S n) => start :: (sample start stop (S n) <$> seq 1 n) ++ [stop]
  end.

(** One row of the chart's data frame. *)
Record DataRow := { ParamValue : float; NPV : float }.

(** The body of the loop over [decision_keys]: the series of one key. *)
Definition sweep_key (user_values : gmap string float)
    (opt_flags : gmap string OptFlag) (k : string)
    : result (string * list DataRow) :=
  f ← getitem opt_flags k;
  let var_min := min f in
  let var_max := max f in
  let steps := linspace var_min var_max 20 in
  data_rows ← for_each (fun val =>
      let temp_params := <[k := val]> user_values in
      out ← calculate_model temp_params;
      Ok {| ParamValue := val; NPV := npv out |}) steps;
  Ok (k, data_rows).

Inductive SweepView :=
  | NoDecisionVariables
  | Charts (series : list (string * list DataRow)).

Definition sensitivity (user_values : gmap string float)
    (opt_flags : gmap string OptFlag) (decision_keys : list string)
    : result SweepView :=
  if (length decision_keys =? 0)%nat then Ok NoDecisionVariables
  else series ← for_each (sweep_key user_values opt_flags) decision_keys;
       Ok (Charts series).

(* ================================================================== *)
(** * Part II: the vocabulary of the statements *)

(** The spec's [feasible] flag is the ["Money"] verdict. *)
Definition feasible (r : Valuation) : bool :=
  bool_decide (money_check r = "Money").

(** The keys [calculate_model] subscripts, in the order it reads them. *)
Definition reads : list string :=
  [ "capex_mw_yr"; "opex_mw_yr"; "annual_h2_prod"; "plant_life";
    "discount_rate"; "capacity_factor"; "h2_efficiency_1"; "h2_efficiency_2";
    "electricity_cost"; "crf"; "dcf_factor"; "h2_selling_price";
    "carbon_tax"; "tax_credit"; "h2_storage_cost"; "h2_transport_cost" ].

(** Whether the assignment leaves a key unbound, and the first key, in
    reading order, that it leaves unbound. *)
Definition missing (vals : gmap string float) (k : string) : bool :=
  match vals !! k with
  | Some _ => false
  | None => true
  end.

Definition first_missing (vals : gmap string float) : option string :=
  List.find (missing vals) reads.

(** The keys whose values reach an output. *)
Definition used : list string :=
  [ "capex_mw_yr"; "opex_mw_yr"; "annual_h2_prod";
    "h2_efficiency_1"; "h2_efficiency_2"; "electricity_cost"; "crf";
    "dcf_factor"; "h2_selling_price"; "carbon_tax"; "tax_credit";
    "h2_storage_cost"; "h2_transport_cost" ].

(** A complete Parameter Assignment: every key the engine reads is bound. *)
Definition complete (vals : gmap string float) : Prop :=
  Forall (fun k => is_Some (vals !! k)) reads.

#[global] Instance complete_dec vals : Decision (complete vals).
Proof. unfold complete. apply _. Defined.

#[global] Instance float_inhabited : Inhabited float := populate 0.

(** The divisor the engine uses once the guard has run. *)
Definition divisor (annual_prod : float) : float :=
  if annual_prod <=? 0 then 1e-9 else annual_prod.

(** What the body of [calculate_model] computes once every subscript has
    succeeded, with plain IEEE division in place of the raising one. *)
Definition closed_form (vals : gmap string float) : Valuation :=
  let annual_prod := divisor (vals !!! "annual_h2_prod") in
  let capex_per_kg := (vals !!! "capex_mw_yr" * vals !!! "crf") / annual_prod in
  let opex_per_kg := vals !!! "opex_mw_yr" / annual_prod in
  let elec_per_kg := (vals !!! "h2_efficiency_1" + vals !!! "h2_efficiency_2")
                     * (vals !!! "electricity_cost" / 1000.0) in
  let carbon_tax_per_kg := vals !!! "carbon_tax" / 1000.0 in
  let lcoh := capex_per_kg + opex_per_kg + elec_per_kg + carbon_tax_per_kg
              + vals !!! "h2_storage_cost" + vals !!! "h2_transport_cost"
              - vals !!! "tax_credit" in
  let revenue := vals !!! "h2_selling_price" * annual_prod in
  let total_cost := lcoh * annual_prod in
  let profit := revenue - total_cost in
  {| capex_per_kg := capex_per_kg;
     opex_per_kg := opex_per_kg;
     elec_per_kg := elec_per_kg;
     carbon_tax_per_kg := carbon_tax_per_kg;
     lcoh := lcoh;
     money_check := if lcoh <? vals !!! "h2_selling_price"
                    then "Money" else "No Money";
     revenue := revenue;
     cost := total_cost;
     profit := profit;
     npv := profit * vals !!! "dcf_factor";
     payback := if 0 <? profit then 5.0 else 0.0;
     roi := if neqb total_cost 0 then profit / total_cost * 100.0 else 0.0 |}.

(** The registry's defaults as session tables: what [user_values] and
    [opt_flags] hold before any edit. *)
Definition default_values : gmap string float :=
  list_to_map ((fun p => (key p, default_value p)) <$> parameters).

Definition default_flags : gmap string OptFlag :=
  list_to_map ((fun p => (key p, {| min := min_value p; max := max_value p;
                                    in_opt := in_optimization p |}))
               <$> parameters).

(** The same bounds with every "In the optimization" box unticked. *)
Definition no_flags : gmap string OptFlag :=
  (fun f => {| min := min f; max := max f; in_opt := false |}) <$> default_flags.

(** An in-range assignment on which LCOH equals the selling price. *)
Definition break_even : gmap string float :=
  <["capex_mw_yr" := 0]> (<["opex_mw_yr" := 0]> (<["h2_efficiency_1" := 0]>
  (<["h2_efficiency_2" := 0]> (<["h2_selling_price" := 1]> default_values)))).


(** The thirteen-key assignment of the worked example, as quoted (each
    integer written as the float it converts to exactly). *)
Definition quoted_assignment : gmap string float :=
  list_to_map
    [ ("capex_mw_yr", 3242); ("opex_mw_yr", 90000); ("annual_h2_prod", 876000);
      ("crf", 0.094392926); ("h2_efficiency_1", 50); ("h2_efficiency_2", 70);
      ("electricity_cost", 3); ("carbon_tax", 0); ("tax_credit", 0);
      ("h2_storage_cost", 1); ("h2_transport_cost", 0);
      ("h2_selling_price", 3.5); ("dcf_factor", 10.59401425) ].

(** [x] agrees with the decimal [d] to within [tol]. *)
Definition approx (x d tol : float) : bool := abs (x - d) <? tol.

(** A reply the library's solver can give: convergence at the start
    point. *)
Definition converges_at_start : Solver :=
  fun _ x0 _ _ => Ok {| success := true; x := x0 |}.


(** Finiteness and NaN-ness read off the specification-level float. *)
Definition SFfinite (f : spec_float) : bool :=
  match f with
  | S754_zero _ | S754_finite _ _ _ => true
  | _ => false
  end.


(** Membership of a literal key in a literal list of keys. *)
Ltac in_list :=
  repeat first [apply list_elem_of_here | apply list_elem_of_further].

(** Completeness of a concrete assignment, by evaluation. *)
Ltac solve_complete :=
  apply (bool_decide_unpack _); vm_compute; exact I.

(* ================================================================== *)
(** * Part III: facts about binary64 arithmetic *)

(** ** Comparisons *)

Lemma Prim2SF_zero : Prim2SF 0 = S754_zero false.
Proof. reflexivity. Qed.

(** A float that is not [<= 0] is not [== 0] either (this covers NaN). *)
Lemma leb_false_neq0 (x : float) : (x <=? 0) = false -> (x =? 0) = false.
Proof.
  rewrite FloatAxioms.leb_spec, FloatAxioms.eqb_spec, Prim2SF_zero.
  destruct (Prim2SF x) as [s|s| |s m e]; try destruct s; cbn; congruence.
Qed.

Lemma ltb_pos_not_leb (x : float) : (0 <? x) = true -> (x <=? 0) = false.
Proof.
  rewrite FloatAxioms.leb_spec, FloatAxioms.ltb_spec, Prim2SF_zero.
  destruct (Prim2SF x) as [s|s| |s m e]; try destruct s; cbn; congruence.
Qed.

Lemma divisor_nonzero (x : float) : (divisor x =? 0) = false.
Proof.
  unfold divisor. destruct (x <=? 0) eqn:E.
  - reflexivity.
  - now apply leb_false_neq0.
Qed.

Lemma divisor_pos (x : float) : (0 <? x) = true -> divisor x = x.
Proof. intros H. unfold divisor. now rewrite (ltb_pos_not_leb x H). Qed.


(** ** Finiteness *)

Lemma SFeqb_finite_refl (s : bool) (m : positive) (e : Z) :
  SFeqb (S754_finite s m e) (S754_finite s m e) = true.
Proof.
  unfold SFeqb, SFcompare.
  rewrite Z.compare_refl, Pos.compare_cont_refl. now destruct s.
Qed.

Lemma is_finite_spec (x : float) : is_finite x = SFfinite (Prim2SF x).
Proof.
  unfold is_finite, is_nan, is_infinity.
  rewrite !FloatAxioms.eqb_spec, FloatAxioms.abs_spec.
  change (Prim2SF infinity) with (S754_infinity false).
  destruct (Prim2SF x) as [s|s| |s m e];
    try reflexivity; try (now destruct s).
  cbn [SFabs SFfinite]. rewrite SFeqb_finite_refl. reflexivity.
Qed.


(** [0 * s + a] is [a] again (up to the sign of a zero) when both are
    finite. *)
Lemma zero_mul_add (s a : float) :
  is_finite s = true -> is_finite a = true -> (0 * s + a =? a) = true.
Proof.
  rewrite !is_finite_spec, FloatAxioms.eqb_spec, FloatAxioms.add_spec,
    FloatAxioms.mul_spec, Prim2SF_zero.
  destruct (Prim2SF s) as [ss|ss| |ss ms es]; try discriminate;
    destruct (Prim2SF a) as [sa|sa| |sa ma ea]; try discriminate; intros _ _;
    cbn [SF64mul SFmul SF64add SFadd xorb];
    try apply SFeqb_finite_refl;
    destruct ss, sa; reflexivity.
Qed.

Lemma div19_finite_inv (d : float) :
  is_finite (d / 19) = true -> is_finite d = true.
Proof.
  rewrite !is_finite_spec, FloatAxioms.div_spec.
  change (Prim2SF 19) with (S754_finite false 5348024557502464 (-48)).
  unfold SF64div, SFdiv.
  destruct (Prim2SF d) as [sd|sd| |sd md ed]; try reflexivity; discriminate.
Qed.

Lemma zero_div19 : 0 / 19 = 0.
Proof. reflexivity. Qed.

(** ** Rounding: when a quotient is finite *)

Section Rounding.
Local Open Scope Z_scope.



















End Rounding.



(* ================================================================== *)
(** * Part IV: the engine *)

(** ** Subscripts, divisions and loops *)

Lemma getitem_Some {A} (d : gmap string A) (k : string) (v : A) :
  d !! k = Some v -> getitem d k = Ok v.
Proof. intros H. unfold getitem. now rewrite H. Qed.

Lemma getitem_None {A} (d : gmap string A) (k : string) :
  d !! k = None -> getitem d k = Raise (KeyError k).
Proof. intros H. unfold getitem. now rewrite H. Qed.

Lemma getitem_total {A} `{Inhabited A} (d : gmap string A) (k : string) :
  is_Some (d !! k) -> getitem d k = Ok (d !!! k).
Proof.
  intros [v Hv]. unfold getitem. rewrite lookup_total_alt, Hv. reflexivity.
Qed.

Lemma truediv_nonzero (x y : float) : (y =? 0) = false -> x /! y = Ok (x / y).
Proof. intros H. unfold truediv. now rewrite H. Qed.

Lemma for_each_map {A B} (f : A -> result B) (g : A -> B) (l : list A) :
  (forall a, a ∈ l -> f a = Ok (g a)) -> for_each f l = Ok (g <$> l).
Proof.
  induction l as [|a l IH]; intros H; [reflexivity|].
  cbn [for_each]. rewrite (H a) by apply list_elem_of_here.
  cbn [mbind result_bind]. rewrite IH.
  - reflexivity.
  - intros b Hb. apply H. now apply list_elem_of_further.
Qed.

(** ** Complete assignments *)

Lemma complete_lookup (vals : gmap string float) (k : string) :
  complete vals -> k ∈ reads -> is_Some (vals !! k).
Proof. intros Hc Hk. exact (proj1 (Forall_forall _ _) Hc k Hk). Qed.

Lemma complete_insert (vals : gmap string float) (k : string) (v : float) :
  complete vals -> complete (<[k := v]> vals).
Proof.
  unfold complete. rewrite !Forall_forall. intros H j Hj.
  destruct (H j Hj) as [w Hw].
  destruct (decide (k = j)) as [->|Hne].
  - exists v. apply lookup_insert_eq.
  - exists w. now rewrite lookup_insert_ne.
Qed.

(** Whatever the widgets return, the table the page builds binds every
    key of the registry, so the engine is always handed a complete
    assignment. *)
Lemma session_is_complete (ui : Param -> Row) :
  complete (fill_tables ui parameters ∅ ∅).1.
Proof. solve_complete. Qed.

(** On a complete assignment no subscript and no division raises, and the
    result is the closed form. *)
Lemma calculate_model_closed_form (vals : gmap string float) :
  complete vals -> calculate_model vals = Ok (closed_form vals).
Proof.
  intros Hc. unfold calculate_model.
  repeat (rewrite getitem_total
            by (apply (complete_lookup vals _ Hc); unfold reads; in_list);
          cbn [mbind result_bind]).
  fold (divisor (vals !!! "annual_h2_prod")).
  repeat (rewrite truediv_nonzero by first [reflexivity | apply divisor_nonzero];
          cbn [mbind result_bind]).
  unfold closed_form.
  match goal with |- context [neqb ?c 0] => destruct (neqb c 0) eqn:E end.
  - rewrite truediv_nonzero by (now apply negb_true_iff in E).
    reflexivity.
  - reflexivity.
Qed.

(** The engine is total on complete assignments. *)
Lemma calculate_model_total (vals : gmap string float) :
  complete vals -> raises (calculate_model vals) = false.
Proof. intros Hc. now rewrite calculate_model_closed_form. Qed.

(** The closed form only looks at the thirteen [used] keys. *)
Lemma closed_form_ext (v1 v2 : gmap string float) :
  (forall k, k ∈ used -> v1 !! k = v2 !! k) ->
  closed_form v1 = closed_form v2.
Proof.
  intros H. unfold closed_form, lookup_total, map_lookup_total.
  rewrite !H by (unfold used; in_list).
  reflexivity.
Qed.

Lemma not_used (k : string) :
  k ∈ used -> k <> "plant_size_mw" /\ k <> "plant_life" /\
              k <> "discount_rate" /\ k <> "capacity_factor".
Proof.
  unfold used. rewrite !elem_of_cons, elem_of_nil.
  intuition (subst; discriminate).
Qed.

(* ================================================================== *)
(** * Part V: the specification, property by property *)

(** ** The formula set *)

(** C1: on a complete assignment with [annual_h2_prod > 0] the engine
    returns a result whose fields are exactly the formulas of the formula
    set: capex_per_kg, opex_per_kg, elec_per_kg, carbon_tax_per_kg, lcoh,
    feasible, revenue, cost, profit and npv. *)
Theorem evaluate_formula_set (vals : gmap string float) :
  complete vals ->
  (0 <? vals !!! "annual_h2_prod") = true ->
  exists r, calculate_model vals = Ok r /\
    capex_per_kg r
      = (vals !!! "capex_mw_yr" * vals !!! "crf") / vals !!! "annual_h2_prod" /\
    opex_per_kg r = vals !!! "opex_mw_yr" / vals !!! "annual_h2_prod" /\
    elec_per_kg r
      = (vals !!! "h2_efficiency_1" + vals !!! "h2_efficiency_2")
        * (vals !!! "electricity_cost" / 1000) /\
    carbon_tax_per_kg r = vals !!! "carbon_tax" / 1000 /\
    lcoh r
      = capex_per_kg r + opex_per_kg r + elec_per_kg r + carbon_tax_per_kg r
        + vals !!! "h2_storage_cost" + vals !!! "h2_transport_cost"
        - vals !!! "tax_credit" /\
    feasible r = (lcoh r <? vals !!! "h2_selling_price") /\
    revenue r = vals !!! "h2_selling_price" * vals !!! "annual_h2_prod" /\
    cost r = lcoh r * vals !!! "annual_h2_prod" /\
    profit r = revenue r - cost r /\
    npv r = profit r * vals !!! "dcf_factor".
Proof.
  intros Hc Hpos. exists (closed_form vals). split.
  - now apply calculate_model_closed_form.
  - unfold closed_form, feasible. rewrite (divisor_pos _ Hpos).
    cbn [capex_per_kg opex_per_kg elec_per_kg carbon_tax_per_kg lcoh
         money_check revenue cost profit npv].
    repeat split.
    match goal with |- context [?a <? ?b] => destruct (a <? b) end; reflexivity.
Qed.

Lemma evaluate_formula_set_witness :
  exists r, calculate_model default_values = Ok r /\
            npv r = profit r * 10.59401425.
Proof.
  destruct (evaluate_formula_set default_values) as (r & Hr & H).
  - solve_complete.
  - reflexivity.
  - exists r. split; [exact Hr|]. apply H.
Defined.

(** ** The epsilon guard *)




(** ** Keys that never reach an output *)

(** C5: two complete assignments that agree on every key other than
    [discount_rate] and [capacity_factor] get identical results: the two
    values are read and divided by 100, and then dropped. *)
Theorem evaluate_ignores_rate_and_capacity (v1 v2 : gmap string float) :
  complete v1 -> complete v2 ->
  (forall k, k <> "discount_rate" -> k <> "capacity_factor" ->
             v1 !! k = v2 !! k) ->
  calculate_model v1 = calculate_model v2.
Proof.
  intros H1 H2 Hagree.
  rewrite !calculate_model_closed_form by assumption.
  f_equal. apply closed_form_ext. intros k Hk.
  apply Hagree; now apply not_used.
Qed.

Lemma evaluate_ignores_rate_and_capacity_witness :
  calculate_model default_values
  = calculate_model
      (<["discount_rate" := 12.5]> (<["capacity_factor" := 40]> default_values)).
Proof.
  apply evaluate_ignores_rate_and_capacity.
  - solve_complete.
  - solve_complete.
  - intros k Hd Hc. now rewrite !lookup_insert_ne by congruence.
Defined.

(** C10: the same holds for [plant_size_mw], which is never read, and
    [plant_life], which is read and never used. *)
Theorem evaluate_ignores_plant_size_and_life (v1 v2 : gmap string float) :
  complete v1 -> complete v2 ->
  (forall k, k <> "plant_size_mw" -> k <> "plant_life" -> v1 !! k = v2 !! k) ->
  calculate_model v1 = calculate_model v2.
Proof.
  intros H1 H2 Hagree.
  rewrite !calculate_model_closed_form by assumption.
  f_equal. apply closed_form_ext. intros k Hk.
  apply Hagree; now apply not_used.
Qed.

Lemma evaluate_ignores_plant_size_and_life_witness :
  calculate_model default_values
  = calculate_model
      (<["plant_life" := 1]> (delete "plant_size_mw" default_values)).
Proof.
  apply evaluate_ignores_plant_size_and_life.
  - solve_complete.
  - solve_complete.
  - intros k Hs Hl.
    rewrite lookup_insert_ne by congruence.
    now rewrite lookup_delete_ne by congruence.
Defined.

(** ** Payback and ROI *)

(** C8: [payback] is [5.0] when [profit > 0] and [0.0] otherwise; it takes
    no other value. *)
Theorem payback_is_placeholder (vals : gmap string float) :
  complete vals ->
  exists r, calculate_model vals = Ok r /\
    payback r = (if 0 <? profit r then 5.0 else 0.0) /\
    (payback r = 5.0 \/ payback r = 0.0).
Proof.
  intros Hc. exists (closed_form vals). split; [|split].
  - now apply calculate_model_closed_form.
  - reflexivity.
  - unfold closed_form; cbn [payback].
    match goal with |- context [0 <? ?p] => destruct (0 <? p) end; auto.
Qed.

Lemma payback_is_placeholder_witness :
  exists r, calculate_model default_values = Ok r /\ payback r = 5.0.
Proof.
  destruct (payback_is_placeholder default_values) as (r & Hr & Hp & _).
  - solve_complete.
  - exists r. split; [exact Hr|].
    rewrite Hp. vm_compute in Hr. injection Hr as <-. reflexivity.
Defined.

(** C7, as the engine has it: [roi] is [0] when [cost = 0], in which case
    no division is performed (the call returns instead of raising), and
    [profit / cost * 100] otherwise. *)
Theorem roi_is_guarded (vals : gmap string float) :
  complete vals ->
  exists r, calculate_model vals = Ok r /\
    ((cost r =? 0) = true -> roi r = 0) /\
    ((cost r =? 0) = false -> roi r = profit r / cost r * 100).
Proof.
  intros Hc. exists (closed_form vals). split.
  - now apply calculate_model_closed_form.
  - unfold closed_form; cbn [roi cost profit]. unfold neqb.
    split; intros ->; reflexivity.
Qed.

Lemma roi_is_guarded_witness :
  exists r, calculate_model (<["h2_selling_price" := 0]> break_even) = Ok r /\
            roi r = -100.
Proof.
  destruct (roi_is_guarded (<["h2_selling_price" := 0]> break_even))
    as (r & Hr & _ & Hnz).
  - solve_complete.
  - exists r. split; [exact Hr|].
    vm_compute in Hr. injection Hr as <-. now rewrite Hnz.
Defined.

(** C7, as claimed, fails in one direction: at break-even the cost is
    876000 and the ROI is nevertheless 0, because the profit is 0. *)
Lemma roi_zero_with_nonzero_cost :
  exists r, calculate_model break_even = Ok r /\
            cost r = 876000 /\ profit r = 0 /\ roi r = 0.
Proof. eexists. split; [vm_compute; reflexivity|]. repeat split. Qed.

(** ** Partial assignments *)

(** One subscript of the engine: either the key is bound and the body goes
    on, or the lookup failure is what the whole call returns. *)
Ltac step_getitem vals :=
  match goal with
  | |- context [getitem vals ?s] =>
      let E := fresh "E" in
      destruct (vals !! s) eqn:E;
      [ rewrite (getitem_Some _ _ _ E)
      | rewrite (getitem_None _ _ E);
        exists s; split; [|reflexivity];
        unfold first_missing, reads, missing; cbn [List.find];
        repeat match goal with H : vals !! _ = _ |- _ => rewrite H end;
        reflexivity ];
      cbn [mbind result_bind]
  end.

Lemma first_missing_Some (vals : gmap string float) (k : string) :
  first_missing vals = Some k -> k ∈ reads /\ vals !! k = None.
Proof.
  intros [Hin Hm]%find_some. split.
  - now apply list_elem_of_In.
  - unfold missing in Hm. now destruct (vals !! k).
Qed.

(** C9: when a key the engine reads is missing, the call returns no
    result: it raises the [KeyError] of the first key, in reading order,
    that is missing. *)
Theorem missing_key_is_lookup_failure (vals : gmap string float) (k : string) :
  k ∈ reads -> vals !! k = None ->
  exists k', first_missing vals = Some k' /\
             calculate_model vals = Raise (KeyError k').
Proof.
  intros Hk Hnone. unfold calculate_model.
  repeat (step_getitem vals;
          try (rewrite truediv_nonzero by reflexivity; cbn [mbind result_bind])).
  exfalso. revert Hk. unfold reads.
  rewrite !elem_of_cons, elem_of_nil.
  intuition (subst; congruence).
Qed.

Lemma missing_key_is_lookup_failure_witness :
  calculate_model (delete "capex_mw_yr" default_values)
  = Raise (KeyError "capex_mw_yr").
Proof.
  destruct (missing_key_is_lookup_failure
              (delete "capex_mw_yr" default_values) "capex_mw_yr")
    as (k' & Hfirst & ->).
  - unfold reads; in_list.
  - apply lookup_delete_eq.
  - vm_compute in Hfirst. now injection Hfirst as <-.
Defined.

(** The first lookup that fails is the one reported. *)
Example missing_plant_life :
  calculate_model (delete "plant_life" default_values)
  = Raise (KeyError "plant_life").
Proof. vm_compute. reflexivity. Qed.

(** A key the engine never reads may be absent. *)
Example missing_plant_size :
  calculate_model (delete "plant_size_mw" default_values)
  = calculate_model default_values.
Proof. vm_compute. reflexivity. Qed.

(** ** The worked example *)

(** C3, as quoted: the assignment has no [plant_life], so the engine
    raises at its fourth subscript and yields no value at all. *)
Lemma quoted_assignment_raises :
  calculate_model quoted_assignment = Raise (KeyError "plant_life").
Proof. vm_compute. reflexivity. Qed.

(** C3, completed: once [plant_life], [discount_rate] and
    [capacity_factor] are bound, to any values whatever, the engine yields
    the quoted figures (each to half a unit of its last quoted digit),
    [elec_per_kg] the very double [0.36], and the verdict feasible. *)
Theorem quoted_assignment_completed (plant_life rate cap : float) :
  exists r,
    calculate_model
      (<["plant_life" := plant_life]> (<["discount_rate" := rate]>
       (<["capacity_factor" := cap]> quoted_assignment))) = Ok r /\
    approx (capex_per_kg r) 0.000349 5e-7 = true /\
    approx (opex_per_kg r) 0.10274 5e-6 = true /\
    elec_per_kg r = 0.36 /\
    approx (lcoh r) 1.4631 5e-5 = true /\
    feasible r = true.
Proof.
  eexists. split.
  - apply calculate_model_closed_form. solve_complete.
  - vm_compute. repeat split.
Qed.

(** ** The optimizer on an empty Decision Set *)

(** With nothing to overlay, the solver's vector is not even looked at. *)
Lemma optimize_npv_empty (minimize : Solver) (user_values : gmap string float)
    (enforce_money : bool) :
  complete user_values ->
  optimize_npv minimize user_values [] [] [] enforce_money
  = (res ← minimize (fun x => objective x user_values []) [] []
             (if enforce_money
              then [fun x => money_constraint x user_values []] else []);
     Ok (if success res
         then Optimized [] user_values (closed_form user_values)
         else OptimizationFailed)).
Proof.
  intros Hc. unfold optimize_npv.
  destruct (minimize _ _ _ _) as [res|e]; cbn [mbind result_bind]; [|reflexivity].
  destruct (success res); [|reflexivity].
  cbn [overlay overlay_from shown_from mbind result_bind].
  now rewrite calculate_model_closed_form.
Qed.

(** Nothing tests for an empty Decision Set before the solver is called
    (the sensitivity tab does test [len(decision_keys) == 0]), so the
    button's outcome there is the solver's reply: what it raises the button
    raises, and a reported failure is shown as a failure. *)
Lemma optimize_empty_follows_solver (minimize : Solver)
    (user_values : gmap string float) (enforce_money : bool) :
  complete user_values ->
  let reply := minimize (fun x => objective x user_values []) [] []
                 (if enforce_money
                  then [fun x => money_constraint x user_values []] else []) in
  (forall e, reply = Raise e ->
     optimize_npv minimize user_values [] [] [] enforce_money = Raise e) /\
  (forall res, reply = Ok res -> success res = false ->
     optimize_npv minimize user_values [] [] [] enforce_money
     = Ok OptimizationFailed).
Proof.
  intros Hc reply. subst reply.
  rewrite (optimize_npv_empty _ _ _ Hc). split.
  - intros e ->. reflexivity.
  - intros res -> Hres. cbn [mbind result_bind]. now rewrite Hres.
Qed.

(** C4, as the adapter has it: with an empty Decision Set the solver is
    still called, on the empty problem; there is no early return.  If it
    reports success the outcome is the fixed assignment's own evaluation,
    with the assignment unchanged and nothing to show; if it reports
    failure, so does the adapter; if it raises, so does the adapter. *)
Theorem optimize_empty_decision_set (minimize : Solver)
    (user_values : gmap string float) (opt_flags : gmap string OptFlag)
    (enforce_money : bool) :
  complete user_values ->
  decision_keys opt_flags = Ok [] ->
  exists r, calculate_model user_values = Ok r /\
    optimize_button minimize user_values opt_flags enforce_money
    = (res ← minimize (fun x => objective x user_values []) [] []
               (if enforce_money
                then [fun x => money_constraint x user_values []] else []);
       Ok (if success res
           then Optimized [] user_values r
           else OptimizationFailed)).
Proof.
  intros Hc Hkeys. exists (closed_form user_values). split.
  - now apply calculate_model_closed_form.
  - unfold optimize_button. rewrite Hkeys.
    cbn [mbind result_bind start_and_bounds for_each fmap list_fmap].
    now apply optimize_npv_empty.
Qed.

Lemma optimize_empty_decision_set_witness :
  exists r, calculate_model default_values = Ok r /\
    optimize_button converges_at_start default_values no_flags true
    = Ok (Optimized [] default_values r).
Proof.
  destruct (optimize_empty_decision_set converges_at_start default_values
              no_flags true) as (r & Hr & Ho).
  - solve_complete.
  - vm_compute. reflexivity.
  - exists r. split; [exact Hr|]. rewrite Ho. reflexivity.
Defined.

(** ** The sweep *)







(** NumPy's own first value, sample 0, is [start] whenever [start] and the
    step are finite. *)
Lemma sample_0 (start stop : float) :
  is_finite start = true -> is_finite ((stop - start) / 19) = true ->
  (sample start stop 19 0 =? start) = true.
Proof.
  intros Hs Hstep. unfold sample.
  change (float_of_nat 0) with 0. change (float_of_nat 19) with 19.
  rewrite zero_div19.
  destruct ((stop - start) / 19 =? 0).
  - apply zero_mul_add; [|assumption]. now apply div19_finite_inv.
  - now apply zero_mul_add.
Qed.

(** The series of one key, in closed form. *)
Lemma sweep_key_closed_form (user_values : gmap string float)
    (opt_flags : gmap string OptFlag) (k : string) (f : OptFlag) :
  complete user_values -> opt_flags !! k = Some f ->
  sweep_key user_values opt_flags k
  = Ok (k, (fun v => {| ParamValue := v;
                        NPV := npv (closed_form (<[k := v]> user_values)) |})
           <$> linspace (min f) (max f) 20).
Proof.
  intros Hc Hf. unfold sweep_key.
  rewrite (getitem_Some _ _ _ Hf). cbn [mbind result_bind].
  erewrite for_each_map; [reflexivity|].
  intros v _. cbn beta.
  rewrite calculate_model_closed_form by now apply complete_insert.
  reflexivity.
Qed.

(** The loop over the Decision Set: one independent series per key, in
    order, each swept with every other key left at its fixed value. *)
Lemma sensitivity_series (user_values : gmap string float)
    (opt_flags : gmap string OptFlag) (k : string) (keys : list string) :
  complete user_values ->
  (forall j, j ∈ k :: keys -> is_Some (opt_flags !! j)) ->
  exists series,
    sensitivity user_values opt_flags (k :: keys) = Ok (Charts series) /\
    series.*1 = k :: keys /\
    Forall (fun s => sweep_key user_values opt_flags s.1 = Ok s) series.
Proof.
  intros Hc Hall. unfold sensitivity. cbn [length Nat.eqb].
  generalize dependent (k :: keys). clear k keys.
  induction l as [|j l IH]; intros Hall.
  - exists []. repeat split. constructor.
  - destruct (Hall j) as [f Hf]; [apply list_elem_of_here|].
    destruct IH as (series & Hs & Hkeys & Hrows).
    { intros i Hi. apply Hall. now apply list_elem_of_further. }
    cbn [for_each]. rewrite (sweep_key_closed_form _ _ _ _ Hc Hf).
    cbn [mbind result_bind] in Hs |- *.
    destruct (for_each (sweep_key user_values opt_flags) l) as [rest|e];
      [|discriminate].
    injection Hs as <-. eexists. split; [reflexivity|]. split.
    + cbn. now rewrite Hkeys.
    + constructor; [|assumption].
      cbn [fst]. now apply sweep_key_closed_form.
Qed.



(** With no decision variable the sweep draws nothing and says so. *)
Example sensitivity_empty :
  sensitivity default_values no_flags [] = Ok NoDecisionVariables.
Proof. reflexivity. Qed.

(** The sweep of a ticked key is one series of the charts. *)
Example sensitivity_one_key :
  exists rows,
    sensitivity default_values default_flags ["electricity_cost"]
    = Ok (Charts [("electricity_cost", rows)]) /\ length rows = 20%nat.
Proof. eexists. split; [vm_compute; reflexivity|reflexivity]. Qed.

